(** * binja_explain_instruction: the plugin entry point ([__init__.py])

    A shallow embedding of [init_plugin] and [explain_instruction] and of
    the module-level state they share, followed by the properties of the
    explanation assembler.

    Modelling choices.
    - The two module globals [arch] and
      [architecture_specific_explanation_function] are the persistent part
      of a [World]; the presentation singleton [explain_window()] and the
      logger are sinks, so every write to them is recorded, in program
      order, in the [trace] of the world.
    - Python exceptions are a result constructor [Raise] that carries the
      world reached so far; [try ... except] is [try_except].
    - Everything imported from the sibling modules ([util], [explain],
      [instruction_state], the per-architecture packages, the window) and
      from the host API is a field of the class [Host].  These are read-only
      queries and are functions, except [get_state] and the window's
      [instruction] setter, which the source guards with [try] and which
      may therefore raise. *)

From Stdlib Require Import ZArith List String Ascii Bool Lia.
From Stdlib Require Import HexadecimalString HexadecimalN.
From Equations Require Import Equations.
Import ListNotations.
Open Scope string_scope.

(** ** Python string primitives used by the plugin *)

Module PyStr.

(** [needle in hay] on Python strings: [needle] occurs as a contiguous
    substring of [hay]. *)
Fixpoint str_in (needle hay : string) : bool :=
  match hay with
  | EmptyString => String.prefix needle hay
  | String _ rest => String.prefix needle hay || str_in needle rest
  end.

(** [s.replace(c, '')] for a one-character [c]. *)
Fixpoint remove_char (c : ascii) (s : string) : string :=
  match s with
  | EmptyString => EmptyString
  | String a rest =>
      if Ascii.eqb a c then remove_char c rest
      else String a (remove_char c rest)
  end.

(** [hex(n)] on a Python 3 integer. *)
Definition hex (n : Z) : string :=
  match n with
  | Z0 => "0x0"
  | Zpos p => "0x" ++ NilZero.string_of_uint (N.to_hex_uint (Npos p))
  | Zneg p => "-0x" ++ NilZero.string_of_uint (N.to_hex_uint (Npos p))
  end.

End PyStr.
Import PyStr.

(** ** Architecture packages and exceptions *)

(** The packages [init_plugin] imports [explain] and [get_doc_url] from. *)
Inductive ArchModule : Type :=
| x86 | mips | aarch64 | ual | asm6502 | msp430 | powerpc.

(** The exceptions of the model.  All of them are subclasses of Python's
    [Exception]; what derives from [BaseException] only is not modelled. *)
Inductive Exn : Type :=
| TypeError (msg : string)
| AttributeError
| OtherException.

(** What the global [architecture_specific_explanation_function] is bound
    to: the module-level lambda, or [explain.arch_explain_instruction] of
    one of the packages. *)
Inductive OverrideFn : Type :=
| default_lambda
| arch_explain_of (m : ArchModule).

(** ** Collaborators *)

Class Host : Type := {
  BinaryView : Type;
  Func : Type;
  Instruction : Type;
  IL : Type;
  Display : Type;
  Flags : Type;
  State : Type;
  (* bv.arch.name *)
  arch_name : BinaryView -> string;
  (* util *)
  get_function_at : BinaryView -> Z -> Func;
  inst_in_func : Func -> Z -> Instruction;
  find_lifted_il : Func -> Z -> list IL;
  find_llil : Func -> Z -> list IL;
  find_mlil : Func -> Z -> list IL;
  dereference_symbols : BinaryView -> IL -> Display;
  (* explain *)
  fold_multi_il : BinaryView -> list IL -> list IL;
  explain_llil : BinaryView -> IL -> string;
  (* <package>.explain.arch_explain_instruction *)
  arch_explain_instruction :
    ArchModule -> BinaryView -> Instruction -> list IL -> bool * list string;
  (* host API *)
  instr_index : IL -> Z;
  get_flags_read_by_lifted_il_instruction : Func -> Z -> Flags;
  get_flags_written_by_lifted_il_instruction : Func -> Z -> Flags;
  (* str(instruction), as the f-string formats it *)
  str : Instruction -> string;
  (* instruction_state *)
  get_state : BinaryView -> Z -> Exn + State;
  (* the exception, if any, the window's instruction setter raises *)
  instruction_setter : string -> option Exn
}.

Section Plugin.

Context `{H : Host}.

(** ** Sinks and module state *)

(** One event per statement that reaches the window or the log.
    [SetInstruction text] records that the assignment to
    [explain_window().instruction] was executed with [text]; whether the
    setter then raised shows in the [PrintExc] that follows it. *)
Inductive Event : Type :=
| SetGetDocUrl (m : ArchModule)
| SetInstruction (text : string)
| PrintExc
| SetDescription (lines : list string)
| SetLlil (l : list Display)
| SetMlil (l : list Display)
| SetFlags (l : list (Flags * Flags * IL))
| SetState (s : State)
| LogError (msg : string)
| Show.

Record World : Type := mkWorld {
  arch : option string;
  architecture_specific_explanation_function : OverrideFn;
  trace : list Event
}.

(** Module state right after import. *)
Definition initial_world : World :=
  {| arch := None;
     architecture_specific_explanation_function := default_lambda;
     trace := [] |}.

(** ** State and exception monad *)

Inductive Result (A : Type) : Type :=
| Ok (a : A) (w : World)
| Raise (e : Exn) (w : World).
Arguments Ok {A} a w.
Arguments Raise {A} e w.

Definition M (A : Type) : Type := World -> Result A.

Definition ret {A} (a : A) : M A := fun w => Ok a w.

Definition bind {A B} (m : M A) (k : A -> M B) : M B :=
  fun w => match m w with
           | Ok a w' => k a w'
           | Raise e w' => Raise e w'
           end.

Definition raise {A} (e : Exn) : M A := fun w => Raise e w.

(** [try: body except <handler's domain>: handler]. *)
Definition try_except {A} (body : M A) (handler : Exn -> option (M A)) : M A :=
  fun w => match body w with
           | Ok a w' => Ok a w'
           | Raise e w' =>
               match handler e with
               | Some h => h w'
               | None => Raise e w'
               end
           end.

Definition final_world {A} (r : Result A) : World :=
  match r with Ok _ w => w | Raise _ w => w end.

Definition succeeded {A} (r : Result A) : bool :=
  match r with Ok _ _ => true | Raise _ _ => false end.

Notation "x <- m ;; k" := (bind m (fun x => k))
  (at level 61, m at next level, right associativity).
Notation "m ;; k" := (bind m (fun _ => k))
  (at level 61, right associativity).

Definition emit (e : Event) : M unit :=
  fun w => Ok tt {| arch := arch w;
                    architecture_specific_explanation_function :=
                      architecture_specific_explanation_function w;
                    trace := (trace w ++ [e])%list |}.

Definition read_arch : M (option string) := fun w => Ok (arch w) w.

Definition write_arch (a : option string) : M unit :=
  fun w => Ok tt {| arch := a;
                    architecture_specific_explanation_function :=
                      architecture_specific_explanation_function w;
                    trace := trace w |}.

Definition read_override : M OverrideFn :=
  fun w => Ok (architecture_specific_explanation_function w) w.

Definition write_override (f : OverrideFn) : M unit :=
  fun w => Ok tt {| arch := arch w;
                    architecture_specific_explanation_function := f;
                    trace := trace w |}.

Definition log_error (msg : string) : M unit := emit (LogError msg).

Definition print_exc : M unit := emit PrintExc.

(** ** [init_plugin] *)

(** [name != arch], where [arch] is [None] or a string. *)
Definition name_differs (name : string) (cached : option string) : bool :=
  match cached with
  | None => true
  | Some a => negb (String.eqb name a)
  end.

(** The [if]/[elif] chain of imports; [None] is the [else] branch. *)
Definition select_module (name : string) : option ArchModule :=
  if str_in "x86" name then Some x86
  else if str_in "mips" name then Some mips
  else if str_in "aarch64" name then Some aarch64
  else if str_in "arm" name || str_in "thumb" name then Some ual
  else if str_in "6502" name then Some asm6502
  else if str_in "msp430" name then Some msp430
  else if str_in "powerpc" name then Some powerpc
  else None.

Definition init_plugin (bv : BinaryView) : M unit :=
  cached <- read_arch ;;
  if name_differs (arch_name bv) cached then
    m <- match select_module (arch_name bv) with
         | Some m => ret m
         | None => raise (TypeError "Could not identify architecture type!")
         end ;;
    emit (SetGetDocUrl m) ;;
    write_override (arch_explain_of m) ;;
    write_arch (Some (arch_name bv))
  else ret tt.

(** ** [explain_instruction] *)

(** Calling whatever the global is bound to. *)
Definition call_override (f : OverrideFn) (bv : BinaryView)
    (instruction : Instruction) (lifted_il_list : list IL) : bool * list string :=
  match f with
  | default_lambda => (false, ["Architecture-specific explanations unavailable"])
  | arch_explain_of m => arch_explain_instruction m bv instruction lifted_il_list
  end.

(** [llil_list if len(llil_list) > 0 else lifted_il_list], the argument of
    [fold_multi_il]. *)
Definition parse_source (llil_list lifted_il_list : list IL) : list IL :=
  if (0 <? List.length llil_list)%nat then llil_list else lifted_il_list.

(** The value assigned to [explain_window().description]. *)
Definition description_lines (bv : BinaryView) (should_supersede_llil : bool)
    (explanation_list : list string) (parse_il : list IL) : list string :=
  if (0 <? List.length explanation_list)%nat then
    if should_supersede_llil then
      map (fun explanation => explanation) explanation_list
    else
      (map (fun explanation => explanation) explanation_list
         ++ map (explain_llil bv) parse_il)%list
  else
    map (explain_llil bv) parse_il.

(** The text assigned to [explain_window().instruction]. *)
Definition instruction_text (addr : Z) (instruction : Instruction) : string :=
  (remove_char "L"%char (hex addr) ++ ":  " ++ str instruction)%string.

Definition set_instruction (text : string) : M unit :=
  emit (SetInstruction text) ;;
  match instruction_setter text with
  | Some e => raise e
  | None => ret tt
  end.

Definition flags_of (func : Func) (lifted_il_list : list IL)
    : list (Flags * Flags * IL) :=
  map (fun lifted =>
         (get_flags_read_by_lifted_il_instruction func (instr_index lifted),
          get_flags_written_by_lifted_il_instruction func (instr_index lifted),
          lifted))
      lifted_il_list.

Definition set_state (bv : BinaryView) (addr : Z) : M unit :=
  match get_state bv addr with
  | inl e => raise e
  | inr s => emit (SetState s)
  end.

Definition explain_instruction (bv : BinaryView) (addr : Z) : M unit :=
  init_plugin bv ;;
  let func := get_function_at bv addr in
  let instruction := inst_in_func func addr in
  let lifted_il_list := find_lifted_il func addr in
  let llil_list := find_llil func addr in
  let mlil_list := find_mlil func addr in
  let parse_il := fold_multi_il bv (parse_source llil_list lifted_il_list) in
  f <- read_override ;;
  let '(should_supersede_llil, explanation_list) :=
    call_override f bv instruction lifted_il_list in
  try_except (set_instruction (instruction_text addr instruction))
             (fun _ => Some print_exc) ;;
  emit (SetDescription
          (description_lines bv should_supersede_llil explanation_list parse_il)) ;;
  emit (SetLlil (map (dereference_symbols bv) llil_list)) ;;
  emit (SetMlil (map (dereference_symbols bv) mlil_list)) ;;
  emit (SetFlags (flags_of func lifted_il_list)) ;;
  try_except (set_state bv addr)
             (fun e => match e with
                       | AttributeError =>
                           Some (log_error
                                   "No instruction state support for this architecture")
                       | _ => None
                       end) ;;
  emit Show.

(** ** Reading a trace *)

(** The events an invocation appended to the trace it started from. *)
Definition emitted (w w' : World) : list Event :=
  skipn (List.length (trace w)) (trace w').

(** The values written to each attribute of the window, in order. *)
Definition instructions (evs : list Event) : list string :=
  flat_map (fun e => match e with SetInstruction t => [t] | _ => [] end) evs.

Definition descriptions (evs : list Event) : list (list string) :=
  flat_map (fun e => match e with SetDescription l => [l] | _ => [] end) evs.

Definition llils (evs : list Event) : list (list Display) :=
  flat_map (fun e => match e with SetLlil l => [l] | _ => [] end) evs.

Definition mlils (evs : list Event) : list (list Display) :=
  flat_map (fun e => match e with SetMlil l => [l] | _ => [] end) evs.

Definition flag_triples (evs : list Event) : list (list (Flags * Flags * IL)) :=
  flat_map (fun e => match e with SetFlags l => [l] | _ => [] end) evs.

Definition states (evs : list Event) : list State :=
  flat_map (fun e => match e with SetState s => [s] | _ => [] end) evs.

Definition logged_errors (evs : list Event) : list string :=
  flat_map (fun e => match e with LogError m => [m] | _ => [] end) evs.

Definition shows (evs : list Event) : nat :=
  List.length (filter (fun e => match e with Show => true | _ => false end) evs).

(** The cached name, if any, is one the selection chain accepts.  It holds
    right after import and every invocation keeps it. *)
Definition cache_ok (w : World) : bool :=
  match arch w with
  | None => true
  | Some a => match select_module a with Some _ => true | None => false end
  end.

(** The host queries of one invocation. *)
Definition func_at (bv : BinaryView) (addr : Z) : Func := get_function_at bv addr.
Definition instruction_at (bv : BinaryView) (addr : Z) : Instruction :=
  inst_in_func (func_at bv addr) addr.
Definition lifted_at (bv : BinaryView) (addr : Z) : list IL :=
  find_lifted_il (func_at bv addr) addr.
Definition llil_at (bv : BinaryView) (addr : Z) : list IL :=
  find_llil (func_at bv addr) addr.
Definition mlil_at (bv : BinaryView) (addr : Z) : list IL :=
  find_mlil (func_at bv addr) addr.

(** What the guarded assignment of the instruction text leaves in the
    trace, and what the guarded state step and the final [show()] do. *)
Definition instruction_events (text : string) : list Event :=
  match instruction_setter text with
  | Some _ => [SetInstruction text; PrintExc]
  | None => [SetInstruction text]
  end.

Definition state_events (bv : BinaryView) (addr : Z) : list Event :=
  match get_state bv addr with
  | inr s => [SetState s; Show]
  | inl AttributeError =>
      [LogError "No instruction state support for this architecture"; Show]
  | inl _ => []
  end.

(** The override result of the invocation: what the function selected by
    [init_plugin] returns for the instruction and its lifted IL. *)
Definition override_result (bv : BinaryView) (addr : Z) (w : World)
    : bool * list string :=
  call_override
    (architecture_specific_explanation_function (final_world (init_plugin bv w)))
    bv (instruction_at bv addr) (lifted_at bv addr).

(** The explainer's output over the folded units, in order. *)
Definition explainer_output (bv : BinaryView) (addr : Z) : list string :=
  map (explain_llil bv)
      (fold_multi_il bv (parse_source (llil_at bv addr) (lifted_at bv addr))).

(** Everything the invocation at [addr] wrote, starting from [w]. *)
Definition written (bv : BinaryView) (addr : Z) (w : World) : list Event :=
  emitted w (final_world (explain_instruction bv addr w)).

End Plugin.

(** The order in which the selection is said to test the name: each entry
    lists the substrings of one test and the package it selects. *)
Definition selection_order : list (list string * ArchModule) :=
  [ (["x86"], x86);
    (["mips"], mips);
    (["aarch64"], aarch64);
    (["arm"; "thumb"], ual);
    (["6502"], asm6502);
    (["msp430"], msp430);
    (["powerpc"], powerpc) ].

(** The package of the first entry of [order] one of whose substrings
    occurs in [name]. *)
Definition first_match (order : list (list string * ArchModule)) (name : string)
    : option ArchModule :=
  option_map snd
    (find (fun t => existsb (fun sub => str_in sub name) (fst t)) order).

Arguments Ok {H A} a w.
Arguments Raise {H A} e w.

(** ** The folder contract *)

Module Folder.

Section Fold.

Context {Stmt : Type}.

(** The decomposition patterns: [fold_pattern l] is the number of leading
    statements of [l] that one pattern covers, if any does. *)
Variable fold_pattern : list Stmt -> option nat.

(** The synthetic unit standing in for the statements it is given. *)
Variable merged : list Stmt -> Stmt.

(** A pattern counts when it stands in for two or more statements that
    are there. *)
Definition recognised (l : list Stmt) : option nat :=
  match fold_pattern l with
  | Some k => if (2 <=? k)%nat && (k <=? List.length l)%nat then Some k else None
  | None => None
  end.

(** Modelled from the spec: [fold_multi_il] is defined in [explain.py],
    which is not part of the sources at hand.  Section 4.1 has it scan the
    statements in order, replace the statements a pattern matches by one
    folded unit, and pass every other statement through unchanged. *)
Equations? fold (l : list Stmt) : list Stmt by wf (List.length l) lt :=
  fold [] := [];
  fold (s :: rest) with Logic.inspect (recognised (s :: rest)) => {
    | exist _ (Some k) E :=
        merged (firstn k (s :: rest)) :: fold (skipn k (s :: rest));
    | exist _ None E := s :: fold rest }.
Proof.
  unfold recognised in E.
  destruct (fold_pattern (s :: rest)) as [n|]; [|discriminate].
  destruct (2 <=? n)%nat eqn:Hlo; [|discriminate].
  destruct (n <=? List.length (s :: rest))%nat eqn:Hhi; [|discriminate].
  injection E as <-.
  apply Nat.leb_le in Hlo. apply Nat.leb_le in Hhi.
  rewrite length_skipn.
  change (List.length (s :: rest)) with (S (List.length rest)) in *. lia.
Qed.

(** No position of [l] starts a recognised pattern. *)
Fixpoint unmatched (l : list Stmt) : bool :=
  match l with
  | [] => true
  | _ :: rest =>
      match recognised l with
      | Some _ => false
      | None => unmatched rest
      end
  end.

End Fold.

End Folder.

(** ** A concrete host *)

Module Demo.

Inductive DemoIL : Type :=
| Sub | SetFlag | BranchIf | Load | Merged (count : nat).

(** Compare-and-branch: a flag-computing subtraction, the flag update and
    the conditional branch on it. *)
Definition demo_pattern (l : list DemoIL) : option nat :=
  match l with
  | Sub :: SetFlag :: BranchIf :: _ => Some 3%nat
  | _ => None
  end.

(** The unit that stands in for [List.length l] statements. *)
Definition demo_merged (l : list DemoIL) : DemoIL := Merged (List.length l).

Definition demo_text (il : DemoIL) : string :=
  match il with
  | Sub => "tmp = A - B"
  | SetFlag => "Z = tmp == 0"
  | BranchIf => "if (Z) goto 0x401000"
  | Load => "eax = [0x401000].d"
  | Merged _ => "if (A == B) goto 0x401000"
  end.

Definition demo_explanation (il : DemoIL) : string :=
  match il with
  | Sub => "Subtracts B from A"
  | SetFlag => "Sets flag Z if the result is zero"
  | BranchIf => "Jumps to 0x401000 if flag Z is set"
  | Load => "Loads 4 bytes from 0x401000 main into eax"
  | Merged _ => "Compares A with B and jumps to 0x401000 if they are equal"
  end.

Definition demo_index (il : DemoIL) : Z :=
  match il with
  | Sub => 0 | SetFlag => 1 | BranchIf => 2 | Load => 3 | Merged _ => 4
  end.

(** Addresses 0 and 20: no IL at all, and at 20 the window's instruction
    setter raises; 4: lifted IL only; 8: an instruction with a
    canned explanation; 12: an instruction with a supplementary one;
    anything else: compare and branch. *)
#[local] Instance demo_host : Host := {|
  BinaryView := string;
  Func := unit;
  Instruction := string;
  IL := DemoIL;
  Display := string;
  Flags := list string;
  State := list (string * Z);
  arch_name := fun bv => bv;
  get_function_at := fun _ _ => tt;
  inst_in_func := fun _ addr =>
    if (addr =? 0)%Z then "nop"
    else if (addr =? 20)%Z then "hlt"
    else if (addr =? 4)%Z then "cmp eax, ebx"
    else if (addr =? 8)%Z then "lock cmpxchg [ecx], edx"
    else if (addr =? 12)%Z then "mov eax, [0x401000]"
    else "jne 0x401000";
  find_lifted_il := fun _ addr =>
    if (addr =? 0)%Z || (addr =? 20)%Z then []
    else if (addr =? 4)%Z then [Sub]
    else if (addr =? 8)%Z then [Load]
    else if (addr =? 12)%Z then [Load]
    else [Sub; SetFlag; BranchIf];
  find_llil := fun _ addr =>
    if (addr =? 0)%Z || (addr =? 20)%Z then []
    else if (addr =? 4)%Z then []
    else if (addr =? 8)%Z then [Load]
    else if (addr =? 12)%Z then [Load]
    else [Sub; SetFlag; BranchIf];
  find_mlil := fun _ addr =>
    if (addr =? 0)%Z || (addr =? 20)%Z then []
    else if (addr =? 4)%Z then []
    else [Load];
  dereference_symbols := fun _ il => demo_text il;
  fold_multi_il := fun _ l => Folder.fold demo_pattern demo_merged l;
  explain_llil := fun _ il => demo_explanation il;
  arch_explain_instruction := fun m _ instruction _ =>
    match m with
    | x86 =>
        if String.eqb instruction "lock cmpxchg [ecx], edx"
        then (true, ["Performs atomic compare-and-swap"])
        else if String.eqb instruction "mov eax, [0x401000]"
        then (false, ["Moves a value into eax"])
        else (false, [])
    | _ => (false, [])
    end;
  instr_index := demo_index;
  get_flags_read_by_lifted_il_instruction := fun _ i =>
    if (i =? 2)%Z then ["z"] else [];
  get_flags_written_by_lifted_il_instruction := fun _ i =>
    if (i =? 0)%Z then ["c"; "z"] else [];
  str := fun i => i;
  get_state := fun bv addr =>
    if str_in "x86" bv then inr [("eax", 0%Z)] else inl AttributeError;
  instruction_setter := fun text =>
    if String.eqb text "0x14:  hlt" then Some OtherException else None
|}.

(** The module state right after import, and the one an x86 session
    leaves behind. *)
Definition fresh : World (H := demo_host) := initial_world.

Definition after_x86 : World (H := demo_host) :=
  final_world (explain_instruction (H := demo_host) "x86_64" 8 fresh).

End Demo.

(** The concrete host again, with a state collaborator that fails with
    something other than [AttributeError] at address 12. *)
Module FailingState.

#[local] Instance failing_host : Host := {|
  BinaryView := string;
  Func := unit;
  Instruction := string;
  IL := Demo.DemoIL;
  Display := string;
  Flags := list string;
  State := list (string * Z);
  arch_name := arch_name (Host := Demo.demo_host);
  get_function_at := get_function_at (Host := Demo.demo_host);
  inst_in_func := inst_in_func (Host := Demo.demo_host);
  find_lifted_il := find_lifted_il (Host := Demo.demo_host);
  find_llil := find_llil (Host := Demo.demo_host);
  find_mlil := find_mlil (Host := Demo.demo_host);
  dereference_symbols := dereference_symbols (Host := Demo.demo_host);
  fold_multi_il := fold_multi_il (Host := Demo.demo_host);
  explain_llil := explain_llil (Host := Demo.demo_host);
  arch_explain_instruction := arch_explain_instruction (Host := Demo.demo_host);
  instr_index := instr_index (Host := Demo.demo_host);
  get_flags_read_by_lifted_il_instruction :=
    get_flags_read_by_lifted_il_instruction (Host := Demo.demo_host);
  get_flags_written_by_lifted_il_instruction :=
    get_flags_written_by_lifted_il_instruction (Host := Demo.demo_host);
  str := str (Host := Demo.demo_host);
  get_state := fun bv addr =>
    if (addr =? 12)%Z then inl OtherException
    else get_state (Host := Demo.demo_host) bv addr;
  instruction_setter := instruction_setter (Host := Demo.demo_host)
|}.

End FailingState.

(** The concrete host once more, with a state collaborator that always
    fails with something other than [AttributeError]. *)
Module AbortingState.


End AbortingState.

(** ** Invariants of the module state *)

Section SelectionState.

Context `{H : Host}.

(** The package whose [get_doc_url] the window currently holds: the last
    one assigned, if any. *)
Definition last_doc_url (evs : list Event) : option ArchModule :=
  fold_left (fun acc e => match e with SetGetDocUrl m => Some m | _ => acc end)
            evs None.

(** The cached name, the selected function and the window's documentation
    hook agree: either nothing has been selected yet, or all three come
    from the package the chain picks for the cached name. *)
Definition selection_coherent (w : World) : Prop :=
  match arch w with
  | None =>
      architecture_specific_explanation_function w = default_lambda /\
      last_doc_url (trace w) = None
  | Some a =>
      exists m, select_module a = Some m /\
                architecture_specific_explanation_function w = arch_explain_of m /\
                last_doc_url (trace w) = Some m
  end.

(** The events of a bundle proper: everything but the documentation hook,
    which is written only when the selection is re-derived. *)
Definition bundle (evs : list Event) : list Event :=
  filter (fun e => match e with SetGetDocUrl _ => false | _ => true end) evs.

Definition doc_urls (evs : list Event) : list ArchModule :=
  flat_map (fun e => match e with SetGetDocUrl m => [m] | _ => [] end) evs.

End SelectionState.

(** Every substring the selection chain looks for. *)
Definition arch_substrings : list string :=
  ["x86"; "mips"; "aarch64"; "arm"; "thumb"; "6502"; "msp430"; "powerpc"].

(** [s] occurs in [name] as a contiguous substring. *)
Definition occurs (s name : string) : Prop :=
  exists pre post, name = (pre ++ s ++ post)%string.

(** * Properties *)

Section PluginProperties.

Context `{H : Host}.

(** ** The trace of an invocation *)

Lemma emitted_app (w w' : World) (evs : list Event) :
  trace w' = (trace w ++ evs)%list -> emitted w w' = evs.
Proof.
  intros E. unfold emitted. rewrite E.
  rewrite skipn_app, skipn_all, Nat.sub_diag. reflexivity.
Qed.

Lemma name_differs_false (name : string) (cached : option string) :
  name_differs name cached = false <-> cached = Some name.
Proof.
  unfold name_differs. destruct cached as [a|]; split; intros E; try discriminate.
  - apply negb_false_iff, String.eqb_eq in E. now subst.
  - injection E as ->. now rewrite String.eqb_refl.
Qed.

(** The three ways [init_plugin] can go. *)
Lemma init_plugin_cached (bv : BinaryView) (w : World) :
  arch w = Some (arch_name bv) -> init_plugin bv w = Ok tt w.
Proof.
  intros E. apply name_differs_false in E.
  unfold init_plugin, bind, read_arch. now rewrite E.
Qed.

Lemma init_plugin_selects (bv : BinaryView) (w : World) (m : ArchModule) :
  arch w <> Some (arch_name bv) ->
  select_module (arch_name bv) = Some m ->
  init_plugin bv w =
    Ok tt {| arch := Some (arch_name bv);
             architecture_specific_explanation_function := arch_explain_of m;
             trace := (trace w ++ [SetGetDocUrl m])%list |}.
Proof.
  intros D S. unfold init_plugin, bind, read_arch.
  destruct (name_differs (arch_name bv) (arch w)) eqn:E.
  - rewrite S. reflexivity.
  - apply name_differs_false in E. contradiction.
Qed.

Lemma init_plugin_rejects (bv : BinaryView) (w : World) :
  arch w <> Some (arch_name bv) ->
  select_module (arch_name bv) = None ->
  init_plugin bv w = Raise (TypeError "Could not identify architecture type!") w.
Proof.
  intros D S. unfold init_plugin, bind, read_arch.
  destruct (name_differs (arch_name bv) (arch w)) eqn:E.
  - rewrite S. reflexivity.
  - apply name_differs_false in E. contradiction.
Qed.

(** A successful [init_plugin] writes at most the documentation hook. *)
Lemma init_plugin_trace (bv : BinaryView) (w w1 : World) :
  init_plugin bv w = Ok tt w1 ->
  exists pre, trace w1 = (trace w ++ pre)%list /\
              (pre = [] \/ exists m, pre = [SetGetDocUrl m]).
Proof.
  unfold init_plugin, bind, read_arch.
  destruct (name_differs (arch_name bv) (arch w)).
  - destruct (select_module (arch_name bv)) as [m|]; [|discriminate].
    intros [= <-]. exists [SetGetDocUrl m]. split; [reflexivity|]. right. now exists m.
  - intros [= <-]. exists []. split; [now rewrite app_nil_r | now left].
Qed.

(** Once [init_plugin] has gone through, the rest of the invocation is
    straight-line: the guarded instruction write, the four unguarded
    writes, and the guarded state step followed by [show()]. *)
Lemma explain_instruction_trace (bv : BinaryView) (addr : Z) (w w1 : World)
    (supersede : bool) (L : list string) :
  init_plugin bv w = Ok tt w1 ->
  call_override (architecture_specific_explanation_function w1) bv
    (instruction_at bv addr) (lifted_at bv addr) = (supersede, L) ->
  let w' := final_world (explain_instruction bv addr w) in
  arch w' = arch w1 /\
  architecture_specific_explanation_function w' =
    architecture_specific_explanation_function w1 /\
  trace w' =
    (trace w1
     ++ instruction_events (instruction_text addr (instruction_at bv addr))
     ++ [SetDescription
           (description_lines bv supersede L
              (fold_multi_il bv (parse_source (llil_at bv addr) (lifted_at bv addr))));
         SetLlil (map (dereference_symbols bv) (llil_at bv addr));
         SetMlil (map (dereference_symbols bv) (mlil_at bv addr));
         SetFlags (flags_of (func_at bv addr) (lifted_at bv addr))]
     ++ state_events bv addr)%list.
Proof.
  intros I O. cbv zeta.
  unfold instruction_at, lifted_at, llil_at, mlil_at, func_at in *.
  remember (explain_instruction bv addr w) as r eqn:R.
  unfold explain_instruction, bind at 1 in R. rewrite I in R.
  unfold bind, read_override in R. cbn beta iota in R. rewrite O in R.
  unfold instruction_events, state_events.
  unfold try_except, set_instruction, set_state, print_exc, log_error,
    bind, emit, raise, ret in R.
  cbn beta iota in R.
  destruct (instruction_setter _) as [e1|];
    destruct (get_state bv addr) as [[msg| |]|st];
    cbn in R; subst r; cbn; repeat rewrite <- app_assoc; cbn; auto.
Qed.

Lemma init_plugin_unit (bv : BinaryView) (w : World) :
  succeeded (init_plugin bv w) = true ->
  init_plugin bv w = Ok tt (final_world (init_plugin bv w)).
Proof.
  destruct (init_plugin bv w) as [[] w1|e w1]; [reflexivity | discriminate].
Qed.

(** What an invocation writes once the architecture is selected: possibly
    the documentation hook, then the bundle. *)
Lemma written_shape (bv : BinaryView) (addr : Z) (w : World)
    (supersede : bool) (L : list string) :
  succeeded (init_plugin bv w) = true ->
  override_result bv addr w = (supersede, L) ->
  exists pre,
    (pre = [] \/ exists m, pre = [SetGetDocUrl m]) /\
    written bv addr w =
      (pre
       ++ instruction_events (instruction_text addr (instruction_at bv addr))
       ++ [SetDescription (description_lines bv supersede L
                             (fold_multi_il bv
                                (parse_source (llil_at bv addr) (lifted_at bv addr))));
           SetLlil (map (dereference_symbols bv) (llil_at bv addr));
           SetMlil (map (dereference_symbols bv) (mlil_at bv addr));
           SetFlags (flags_of (func_at bv addr) (lifted_at bv addr))]
       ++ state_events bv addr)%list.
Proof.
  intros S O. apply init_plugin_unit in S.
  destruct (init_plugin_trace _ _ _ S) as (pre & T & P).
  destruct (explain_instruction_trace bv addr w _ supersede L S O) as (_ & _ & T').
  exists pre. split; [exact P|].
  unfold written. apply emitted_app.
  rewrite T', T, <- app_assoc. reflexivity.
Qed.

(** Case analysis on the shape given by [written_shape]. *)
Ltac by_shape Sh :=
  destruct Sh as (pre & [-> | [m ->]] & ->);
  unfold instruction_events, state_events;
  destruct (instruction_setter _);
  destruct (get_state _ _) as [[| |]|];
  cbn.

(** ** Merge of the override and the explainer output *)

(** C1. Once the architecture is selected, the description written to the
    window is: the override lines alone when they are non-empty and
    supersede; the override lines followed by the explainer's output over
    the folded units when they are non-empty and do not supersede; the
    explainer's output alone when there are no override lines. *)
Theorem explain_instruction_merge_rule (bv : BinaryView) (addr : Z) (w : World)
    (supersede : bool) (L : list string) :
  succeeded (init_plugin bv w) = true ->
  override_result bv addr w = (supersede, L) ->
  let E := explainer_output bv addr in
  let final := descriptions (written bv addr w) in
  (L <> [] -> supersede = true -> final = [L]) /\
  (L <> [] -> supersede = false -> final = [(L ++ E)%list]) /\
  (L = [] -> final = [E]).
Proof.
  intros S O E final.
  assert (F : final =
              [description_lines bv supersede L
                 (fold_multi_il bv (parse_source (llil_at bv addr) (lifted_at bv addr)))]).
  { subst final. pose proof (written_shape bv addr w supersede L S O) as Sh.
    by_shape Sh; reflexivity. }
  rewrite F. unfold description_lines. rewrite map_id. fold E.
  repeat split.
  - intros N ->. destruct L; [contradiction | reflexivity].
  - intros N ->. destruct L; [contradiction | reflexivity].
  - intros ->. reflexivity.
Qed.

(** ** Source of the folded sequence *)

(** C2. The folder is fed the low-level IL, and the lifted IL exactly when
    the low-level IL is empty: the description is built from the fold of
    the lifted sequence in that case and from the fold of the low-level
    sequence otherwise, so that the folder gets a non-empty sequence
    whenever the lifted one is non-empty. *)
Theorem explain_instruction_fold_source (bv : BinaryView) (addr : Z) (w : World)
    (supersede : bool) (L : list string) :
  succeeded (init_plugin bv w) = true ->
  override_result bv addr w = (supersede, L) ->
  let llil_list := llil_at bv addr in
  let lifted_il_list := lifted_at bv addr in
  (llil_list <> [] ->
     parse_source llil_list lifted_il_list = llil_list /\
     descriptions (written bv addr w) =
       [description_lines bv supersede L (fold_multi_il bv llil_list)]) /\
  (llil_list = [] ->
     parse_source llil_list lifted_il_list = lifted_il_list /\
     descriptions (written bv addr w) =
       [description_lines bv supersede L (fold_multi_il bv lifted_il_list)]) /\
  (lifted_il_list <> [] -> parse_source llil_list lifted_il_list <> []).
Proof.
  intros S O llil_list lifted_il_list.
  assert (F : descriptions (written bv addr w) =
              [description_lines bv supersede L
                 (fold_multi_il bv (parse_source llil_list lifted_il_list))]).
  { pose proof (written_shape bv addr w supersede L S O) as Sh.
    by_shape Sh; reflexivity. }
  rewrite F. unfold parse_source.
  destruct llil_list as [|s rest] eqn:El; cbn.
  - split; [intros N; contradiction | split]; [split; reflexivity | auto].
  - split; [split; reflexivity | split]; [discriminate | discriminate].
Qed.

(** ** Symbol dereferencing *)

(** C6. The low-level and the mid-level IL shown are the statements of the
    respective sequence, each passed through [dereference_symbols] on its
    own; the description is the merge of the override lines and the
    explainer's output as it stands. *)
Theorem explain_instruction_dereference_scope (bv : BinaryView) (addr : Z)
    (w : World) (supersede : bool) (L : list string) :
  succeeded (init_plugin bv w) = true ->
  override_result bv addr w = (supersede, L) ->
  llils (written bv addr w) = [map (dereference_symbols bv) (llil_at bv addr)] /\
  mlils (written bv addr w) = [map (dereference_symbols bv) (mlil_at bv addr)] /\
  descriptions (written bv addr w) =
    [if (0 <? List.length L)%nat
     then if supersede then L else (L ++ explainer_output bv addr)%list
     else explainer_output bv addr].
Proof.
  intros S O.
  pose proof (written_shape bv addr w supersede L S O) as Sh.
  unfold explainer_output.
  by_shape Sh; unfold description_lines; rewrite map_id; auto.
Qed.

(** ** Flags *)

(** C8. The flags written to the window are, for each lifted-IL statement
    in order, the flags the host reports as read and as written at that
    statement's IL index, together with the statement itself. *)
Theorem explain_instruction_flags_verbatim (bv : BinaryView) (addr : Z)
    (w : World) :
  succeeded (init_plugin bv w) = true ->
  flag_triples (written bv addr w) =
    [map (fun lifted =>
            (get_flags_read_by_lifted_il_instruction (func_at bv addr)
               (instr_index lifted),
             get_flags_written_by_lifted_il_instruction (func_at bv addr)
               (instr_index lifted),
             lifted))
         (lifted_at bv addr)].
Proof.
  intros S.
  destruct (override_result bv addr w) as [supersede L] eqn:O.
  pose proof (written_shape bv addr w supersede L S O) as Sh.
  by_shape Sh; reflexivity.
Qed.

(** ** Architecture selection *)

Lemma cache_ok_initial : cache_ok initial_world = true.
Proof. reflexivity. Qed.

(** A cache that passes [cache_ok] never holds a name the chain rejects. *)
Lemma cache_ok_differs (bv : BinaryView) (w : World) :
  cache_ok w = true ->
  select_module (arch_name bv) = None ->
  arch w <> Some (arch_name bv).
Proof.
  unfold cache_ok. intros C S E. rewrite E, S in C. discriminate.
Qed.

Lemma init_plugin_cache_ok (bv : BinaryView) (w : World) :
  cache_ok w = true -> cache_ok (final_world (init_plugin bv w)) = true.
Proof.
  intros C. unfold init_plugin, bind, read_arch.
  destruct (name_differs (arch_name bv) (arch w)); [|exact C].
  destruct (select_module (arch_name bv)) as [m|] eqn:S; cbn; [|exact C].
  unfold cache_ok. cbn. now rewrite S.
Qed.

(** When [init_plugin] raises, nothing after it runs. *)
Lemma explain_instruction_aborts (bv : BinaryView) (addr : Z) (w w1 : World)
    (e : Exn) :
  init_plugin bv w = Raise e w1 -> explain_instruction bv addr w = Raise e w1.
Proof.
  intros I. unfold explain_instruction, bind at 1. now rewrite I.
Qed.

(** Every invocation, failed or not, keeps the cache consistent. *)
Lemma explain_instruction_cache_ok (bv : BinaryView) (addr : Z) (w : World) :
  cache_ok w = true ->
  cache_ok (final_world (explain_instruction bv addr w)) = true.
Proof.
  intros C. pose proof (init_plugin_cache_ok bv w C) as C1.
  destruct (init_plugin bv w) as [[] w1|e w1] eqn:I.
  - destruct (call_override (architecture_specific_explanation_function w1) bv
                (instruction_at bv addr) (lifted_at bv addr)) as [sup L] eqn:O.
    destruct (explain_instruction_trace bv addr w w1 sup L I O) as (A & _ & _).
    unfold cache_ok in *. cbn in C1. now rewrite A.
  - rewrite (explain_instruction_aborts bv addr w _ _ I). exact C1.
Qed.

(** C3. A name the selection chain rejects makes [init_plugin], the first
    step of the invocation, raise; the invocation ends there with the
    world as it found it: the cache is untouched and nothing has been
    written to the window. *)
Theorem explain_instruction_unsupported_architecture (bv : BinaryView)
    (addr : Z) (w : World) :
  cache_ok w = true ->
  select_module (arch_name bv) = None ->
  init_plugin bv w = Raise (TypeError "Could not identify architecture type!") w /\
  explain_instruction bv addr w =
    Raise (TypeError "Could not identify architecture type!") w /\
  written bv addr w = [].
Proof.
  intros C S.
  pose proof (init_plugin_rejects bv w (cache_ok_differs bv w C S) S) as I.
  pose proof (explain_instruction_aborts bv addr w _ _ I) as E.
  repeat split; auto.
  unfold written. rewrite E. apply emitted_app. cbn. now rewrite app_nil_r.
Qed.

(** C4, as amended. The cached selection is re-derived exactly when the
    observed name differs from the cached one.  With the cached name the
    invocation leaves the cached name and the selected function as they
    are; with another name that the chain accepts it replaces both; with
    another name that the chain rejects it raises and leaves both as they
    are. *)
Theorem init_plugin_cache_policy (bv : BinaryView) (addr : Z) (w : World) :
  let w' := final_world (explain_instruction bv addr w) in
  (arch w = Some (arch_name bv) ->
     init_plugin bv w = Ok tt w /\
     arch w' = arch w /\
     architecture_specific_explanation_function w' =
       architecture_specific_explanation_function w) /\
  (arch w <> Some (arch_name bv) ->
     forall m, select_module (arch_name bv) = Some m ->
       arch w' = Some (arch_name bv) /\
       architecture_specific_explanation_function w' = arch_explain_of m) /\
  (arch w <> Some (arch_name bv) ->
     select_module (arch_name bv) = None ->
       succeeded (explain_instruction bv addr w) = false /\
       arch w' = arch w /\
       architecture_specific_explanation_function w' =
         architecture_specific_explanation_function w).
Proof.
  cbv zeta. split; [|split].
  - intros E. pose proof (init_plugin_cached bv w E) as I.
    destruct (call_override (architecture_specific_explanation_function w) bv
                (instruction_at bv addr) (lifted_at bv addr)) as [sup L] eqn:O.
    destruct (explain_instruction_trace bv addr w w sup L I O) as (A & F & _).
    auto.
  - intros D m S. pose proof (init_plugin_selects bv w m D S) as I.
    destruct (call_override (arch_explain_of m) bv
                (instruction_at bv addr) (lifted_at bv addr)) as [sup L] eqn:O.
    destruct (explain_instruction_trace bv addr w _ sup L I O) as (A & F & _).
    cbn in A, F. auto.
  - intros D S. pose proof (init_plugin_rejects bv w D S) as I.
    rewrite (explain_instruction_aborts bv addr w _ _ I). cbn. auto.
Qed.

(** ** Degraded outcomes *)


(** C9. When [get_state] raises [AttributeError] the invocation still ends
    normally: no state is written, the message is logged through
    [log_error], every other field of the bundle is written once, and the
    last thing done is [show()]. *)
Theorem explain_instruction_state_unavailable (bv : BinaryView) (addr : Z)
    (w : World) :
  succeeded (init_plugin bv w) = true ->
  get_state bv addr = inl AttributeError ->
  let evs := written bv addr w in
  succeeded (explain_instruction bv addr w) = true /\
  states evs = [] /\
  logged_errors evs = ["No instruction state support for this architecture"] /\
  instructions evs = [instruction_text addr (instruction_at bv addr)] /\
  List.length (descriptions evs) = 1%nat /\
  List.length (llils evs) = 1%nat /\
  List.length (mlils evs) = 1%nat /\
  List.length (flag_triples evs) = 1%nat /\
  shows evs = 1%nat /\
  last evs PrintExc = Show.
Proof.
  intros S G evs.
  destruct (override_result bv addr w) as [supersede L] eqn:O.
  pose proof (written_shape bv addr w supersede L S O) as Sh.
  split.
  - clear Sh evs. apply init_plugin_unit in S.
    unfold override_result in O. unfold instruction_at, lifted_at, func_at in O.
    unfold explain_instruction, bind at 1. rewrite S.
    unfold bind, read_override. cbn beta iota. rewrite O.
    unfold try_except, set_instruction, set_state, print_exc, log_error,
      bind, emit, raise, ret.
    cbn beta iota. rewrite G.
    destruct (instruction_setter _); reflexivity.
  - subst evs.
    destruct Sh as (pre & [-> | [m ->]] & ->);
      unfold instruction_events, state_events; rewrite G;
      destruct (instruction_setter _); cbn; repeat split; reflexivity.
Qed.

End PluginProperties.

(** C10. The selection is the first match in the order x86, mips, aarch64,
    arm or thumb, 6502, msp430, powerpc: for every name it returns the
    package of the earliest test the name passes, whatever later tests it
    would pass as well; a name with both [x86] and [mips] in it selects
    the x86 package. *)
Theorem select_module_first_match :
  (forall name, select_module name = first_match selection_order name) /\
  (forall name, str_in "x86" name = true -> select_module name = Some x86) /\
  select_module "mips-x86" = Some x86.
Proof.
  split; [|split].
  - intros name. unfold select_module, first_match, selection_order. cbn.
    repeat rewrite orb_false_r.
    destruct (str_in "x86" name); [reflexivity|].
    destruct (str_in "mips" name); [reflexivity|].
    destruct (str_in "aarch64" name); [reflexivity|].
    destruct (str_in "arm" name || str_in "thumb" name); [reflexivity|].
    destruct (str_in "6502" name); [reflexivity|].
    destruct (str_in "msp430" name); [reflexivity|].
    destruct (str_in "powerpc" name); reflexivity.
  - intros name E. unfold select_module. now rewrite E.
  - reflexivity.
Qed.

(** ** The folder *)

Section FolderProperties.

Context {Stmt : Type}.
Variable fold_pattern : list Stmt -> option nat.
Variable merged : list Stmt -> Stmt.

Lemma recognised_bounds (l : list Stmt) (k : nat) :
  Folder.recognised fold_pattern l = Some k -> (2 <= k <= List.length l)%nat.
Proof.
  unfold Folder.recognised.
  destruct (fold_pattern l) as [n|]; [|discriminate].
  destruct (2 <=? n)%nat eqn:Hlo; [|discriminate].
  destruct (n <=? List.length l)%nat eqn:Hhi; [|discriminate].
  intros [= <-]. apply Nat.leb_le in Hlo. apply Nat.leb_le in Hhi. lia.
Qed.

(** Each step of the scan emits one unit and consumes at least one
    statement. *)
Lemma fold_length (l : list Stmt) :
  (List.length (Folder.fold fold_pattern merged l) <= List.length l)%nat.
Proof.
  funelim (Folder.fold fold_pattern merged l).
  - apply Nat.le_refl.
  - match goal with
    | IH : (List.length (Folder.fold _ _ (skipn _ _)) <= _)%nat |- _ =>
        rewrite length_skipn in IH
    end.
    pose proof (recognised_bounds _ _ E) as B.
    cbn [List.length] in *. lia.
  - cbn [List.length]. lia.
Qed.

Lemma fold_unmatched (l : list Stmt) :
  Folder.unmatched fold_pattern l = true -> Folder.fold fold_pattern merged l = l.
Proof.
  funelim (Folder.fold fold_pattern merged l); intros U.
  - reflexivity.
  - cbn [Folder.unmatched] in U.
    destruct (Folder.recognised fold_pattern (s :: rest)); discriminate.
  - cbn [Folder.unmatched] in U.
    destruct (Folder.recognised fold_pattern (s :: rest)); [discriminate|].
    f_equal. auto.
Qed.

(** The folder returns nothing for the empty sequence. *)
Lemma fold_nil : Folder.fold fold_pattern merged [] = [].
Proof. now simp fold. Qed.

(** C5. The folded sequence is never longer than the sequence it was
    made from, and a sequence none of whose positions starts a recognised
    pattern comes back as it went in, same statements in the same order. *)
Theorem fold_length_and_passthrough (S : list Stmt) :
  (List.length (Folder.fold fold_pattern merged S) <= List.length S)%nat /\
  (Folder.unmatched fold_pattern S = true ->
     Folder.fold fold_pattern merged S = S).
Proof.
  split; [apply fold_length | apply fold_unmatched].
Qed.

End FolderProperties.

(** The compare-and-branch scenario: three statements fold into one unit,
    and the statements around the pattern stay where they are. *)
Example fold_compare_and_branch :
  Folder.fold Demo.demo_pattern Demo.demo_merged
    [Demo.Load; Demo.Sub; Demo.SetFlag; Demo.BranchIf; Demo.Load] =
  [Demo.Load; Demo.Merged 3; Demo.Load].
Proof. reflexivity. Qed.

(** ** The properties at work on the concrete host *)

Import Demo.

Example instruction_text_of_branch :
  instruction_text (H := demo_host) 4198400 "jne 0x401000" =
    "0x401000:  jne 0x401000".
Proof. reflexivity. Qed.

(** The window's setter raises on the instruction at address 20: the
    traceback is printed and the invocation carries on to [show()]. *)
Example setter_failure_is_contained :
  explain_instruction (H := demo_host) "x86_64" 20 fresh =
    Ok tt {| arch := Some "x86_64";
             architecture_specific_explanation_function := arch_explain_of x86;
             trace := [SetGetDocUrl x86;
                       SetInstruction "0x14:  hlt"; PrintExc;
                       SetDescription []; SetLlil []; SetMlil []; SetFlags [];
                       SetState ([("eax", 0%Z)] : State (Host := demo_host)); Show] |}.
Proof. reflexivity. Qed.

(** An x86 instruction with a canned explanation that supersedes. *)
Lemma explain_instruction_merge_rule_witness :
  succeeded (init_plugin (H := demo_host) "x86_64" fresh) = true /\
  override_result (H := demo_host) "x86_64" 8 fresh =
    (true, ["Performs atomic compare-and-swap"]) /\
  descriptions (written (H := demo_host) "x86_64" 8 fresh) =
    [["Performs atomic compare-and-swap"]].
Proof.
  split; [reflexivity | split; [reflexivity|]].
  destruct (explain_instruction_merge_rule (H := demo_host) "x86_64" 8 fresh
              true ["Performs atomic compare-and-swap"] eq_refl eq_refl)
    as [Sup _].
  apply Sup; [discriminate | reflexivity].
Defined.

(** A compare with lifted IL only: the folder is fed the lifted statement. *)
Lemma explain_instruction_fold_source_witness :
  llil_at (H := demo_host) "x86_64" 4 = [] /\
  descriptions (written (H := demo_host) "x86_64" 4 fresh) =
    [["Subtracts B from A"]].
Proof.
  split; [reflexivity|].
  destruct (explain_instruction_fold_source (H := demo_host) "x86_64" 4 fresh
              false [] eq_refl eq_refl)
    as (_ & Fallback & _).
  destruct (Fallback eq_refl) as [_ D]. exact D.
Defined.

(** An unknown architecture right after import. *)
Lemma explain_instruction_unsupported_architecture_witness :
  cache_ok fresh = true /\
  select_module "riscv" = None /\
  explain_instruction (H := demo_host) "riscv" 8 fresh =
    Raise (TypeError "Could not identify architecture type!") fresh.
Proof.
  split; [reflexivity | split; [reflexivity|]].
  destruct (explain_instruction_unsupported_architecture (H := demo_host)
              "riscv" 8 fresh eq_refl eq_refl)
    as (_ & E & _).
  exact E.
Defined.

(** C4 as stated fails: with [x86_64] cached, an invocation on a binary
    whose architecture is [riscv] sees a different name and yet replaces
    neither the cached name nor the selected function. *)
Lemma cache_kept_for_unsupported_name :
  arch after_x86 = Some "x86_64" /\
  arch_name (Host := demo_host) "riscv" = "riscv" /\
  arch (final_world (explain_instruction (H := demo_host) "riscv" 8 after_x86))
    <> Some "riscv" /\
  architecture_specific_explanation_function
    (final_world (explain_instruction (H := demo_host) "riscv" 8 after_x86))
    = arch_explain_of x86.
Proof.
  split; [reflexivity | split; [reflexivity | split; [|reflexivity]]].
  vm_compute. discriminate.
Qed.

(** A MIPS binary opened after an x86 one. *)
Lemma init_plugin_cache_policy_witness :
  arch after_x86 <> Some "mips32" /\
  select_module "mips32" = Some mips /\
  arch (final_world (explain_instruction (H := demo_host) "mips32" 8 after_x86))
    = Some "mips32" /\
  architecture_specific_explanation_function
    (final_world (explain_instruction (H := demo_host) "mips32" 8 after_x86))
    = arch_explain_of mips.
Proof.
  assert (D : arch after_x86 <> Some "mips32") by (vm_compute; discriminate).
  split; [exact D | split; [reflexivity|]].
  destruct (init_plugin_cache_policy (H := demo_host) "mips32" 8 after_x86)
    as (_ & Replace & _).
  exact (Replace D mips eq_refl).
Defined.

(** Dereferenced IL next to an untouched description. *)
Lemma explain_instruction_dereference_scope_witness :
  llils (written (H := demo_host) "x86_64" 12 fresh) = [["eax = [0x401000].d"]] /\
  mlils (written (H := demo_host) "x86_64" 12 fresh) = [["eax = [0x401000].d"]] /\
  descriptions (written (H := demo_host) "x86_64" 12 fresh) =
    [["Moves a value into eax"; "Loads 4 bytes from 0x401000 main into eax"]].
Proof.
  exact (explain_instruction_dereference_scope (H := demo_host) "x86_64" 12 fresh
           false ["Moves a value into eax"] eq_refl eq_refl).
Defined.



(** Compare and branch: one triple per lifted statement. *)
Lemma explain_instruction_flags_verbatim_witness :
  flag_triples (written (H := demo_host) "x86_64" 16 fresh) =
    [[ (@nil string, ["c"; "z"], Sub);
       (@nil string, @nil string, SetFlag);
       (["z"], @nil string, BranchIf) ]].
Proof.
  exact (explain_instruction_flags_verbatim (H := demo_host) "x86_64" 16 fresh
           eq_refl).
Defined.

(** A MIPS binary, for which the demo host has no state support. *)
Lemma explain_instruction_state_unavailable_witness :
  get_state (Host := demo_host) "mips32" 12 = inl AttributeError /\
  succeeded (explain_instruction (H := demo_host) "mips32" 12 fresh) = true /\
  states (written (H := demo_host) "mips32" 12 fresh) = [] /\
  logged_errors (written (H := demo_host) "mips32" 12 fresh) =
    ["No instruction state support for this architecture"] /\
  shows (written (H := demo_host) "mips32" 12 fresh) = 1%nat.
Proof.
  split; [reflexivity|].
  destruct (explain_instruction_state_unavailable (H := demo_host) "mips32" 12
              fresh eq_refl eq_refl)
    as (Ok_ & St & Lg & _ & _ & _ & _ & _ & Sh & _).
  repeat split; assumption.
Defined.

(** A name that passes the first test. *)
Lemma select_module_first_match_witness :
  str_in "x86" "x86_64" = true /\ select_module "x86_64" = Some x86.
Proof.
  split; [reflexivity|].
  destruct select_module_first_match as (_ & First & _).
  apply First. reflexivity.
Defined.

(** A sequence with no pattern in it. *)
Lemma fold_length_and_passthrough_witness :
  Folder.unmatched Demo.demo_pattern [Demo.Load; Demo.Sub] = true /\
  Folder.fold Demo.demo_pattern Demo.demo_merged [Demo.Load; Demo.Sub] =
    [Demo.Load; Demo.Sub].
Proof.
  split; [reflexivity|].
  destruct (fold_length_and_passthrough Demo.demo_pattern Demo.demo_merged
              [Demo.Load; Demo.Sub])
    as [_ Same].
  apply Same. reflexivity.
Defined.

(** * Further properties of the entry point *)

(** ** Strings *)

Lemma prefix_occurs (s t : string) :
  String.prefix s t = true <-> exists post, t = (s ++ post)%string.
Proof.
  revert t. induction s as [|a s IH]; intros t; cbn.
  - split; [intros _; now exists t | now destruct t].
  - destruct t as [|b t]; cbn.
    + split; [discriminate | intros [post E]; discriminate].
    + destruct (ascii_dec a b) as [->|N].
      * rewrite IH. split; intros [post E]; exists post.
        -- now rewrite E.
        -- now injection E.
      * split; [discriminate|]. intros [post E]. injection E as E1 _.
        now elim N.
Qed.

(** [str_in] is the substring test. *)
Lemma str_in_occurs (s t : string) : str_in s t = true <-> occurs s t.
Proof.
  unfold occurs. induction t as [|b t IH]; cbn [str_in].
  - rewrite prefix_occurs. split.
    + intros [post E]. now exists EmptyString, post.
    + intros (pre & post & E). destruct pre; [|discriminate]. now exists post.
  - rewrite orb_true_iff, prefix_occurs, IH. split.
    + intros [[post E] | (pre & post & E)].
      * now exists EmptyString, post.
      * exists (String b pre), post. cbn. now rewrite E.
    + intros (pre & post & E). destruct pre as [|c pre].
      * left. now exists post.
      * right. cbn in E. injection E as _ E. now exists pre, post.
Qed.

Lemma remove_char_app (c : ascii) (s t : string) :
  remove_char c (s ++ t) = (remove_char c s ++ remove_char c t)%string.
Proof.
  induction s as [|a s IH]; cbn; [reflexivity|].
  destruct (Ascii.eqb a c); cbn; now rewrite IH.
Qed.

Lemma remove_L_hex_digits (d : Hexadecimal.uint) :
  remove_char "L"%char (NilEmpty.string_of_uint d) = NilEmpty.string_of_uint d.
Proof.
  induction d; cbn; try rewrite IHd; reflexivity.
Qed.

Lemma remove_L_hex_number (d : Hexadecimal.uint) :
  remove_char "L"%char (NilZero.string_of_uint d) = NilZero.string_of_uint d.
Proof.
  destruct d; try reflexivity; apply remove_L_hex_digits.
Qed.

(** X8. Stripping the letter L from [hex(addr)] never changes it, for any
    address, negative ones included: the text shown is [hex(addr)], a
    colon, two spaces and the instruction as the host prints it. *)
Theorem instruction_text_no_strip `{H : Host} (addr : Z) (instruction : Instruction) :
  remove_char "L"%char (hex addr) = hex addr /\
  instruction_text addr instruction =
    (hex addr ++ ":  " ++ str instruction)%string.
Proof.
  assert (E : remove_char "L"%char (hex addr) = hex addr).
  { destruct addr as [|p|p]; [reflexivity| |];
      unfold hex; rewrite remove_char_app, remove_L_hex_number; reflexivity. }
  split; [exact E|]. unfold instruction_text. now rewrite E.
Qed.

(** ** When the selection fails *)

Lemma select_module_none (name : string) :
  select_module name = None <->
  Forall (fun s => str_in s name = false) arch_substrings.
Proof.
  unfold select_module, arch_substrings. split.
  - intros E.
    destruct (str_in "x86" name) eqn:E1; [discriminate|].
    destruct (str_in "mips" name) eqn:E2; [discriminate|].
    destruct (str_in "aarch64" name) eqn:E3; [discriminate|].
    destruct (str_in "arm" name) eqn:E4; [discriminate|].
    destruct (str_in "thumb" name) eqn:E5; [discriminate|].
    destruct (str_in "6502" name) eqn:E6; [discriminate|].
    destruct (str_in "msp430" name) eqn:E7; [discriminate|].
    destruct (str_in "powerpc" name) eqn:E8; [discriminate|].
    repeat constructor; assumption.
  - intros F. repeat match goal with
                     | F : Forall _ (_ :: _) |- _ =>
                         let E := fresh "E" in
                         apply Forall_cons_iff in F; destruct F as [E F];
                         rewrite E
                     end.
    reflexivity.
Qed.

Lemma select_module_none_occurs (name : string) :
  select_module name = None <->
  forall s, In s arch_substrings -> ~ occurs s name.
Proof.
  rewrite select_module_none, Forall_forall.
  split; intros A s I.
  - rewrite <- str_in_occurs. rewrite (A s I). discriminate.
  - specialize (A s I). rewrite <- str_in_occurs in A.
    now destruct (str_in s name).
Qed.

(** ** Outcome of an invocation *)

Section EntryPointProperties.

Context `{H : Host}.

Ltac shape_cases Sh :=
  destruct Sh as (pre & [-> | [m ->]] & ->);
  unfold instruction_events, state_events;
  destruct (instruction_setter _);
  destruct (get_state _ _) as [[| |]|];
  cbn.

(** [init_plugin] raises in one place only, and before it writes. *)
Lemma init_plugin_raise_inv (bv : BinaryView) (w w1 : World) (e : Exn) :
  init_plugin bv w = Raise e w1 ->
  w1 = w /\ e = TypeError "Could not identify architecture type!" /\
  arch w <> Some (arch_name bv) /\ select_module (arch_name bv) = None.
Proof.
  unfold init_plugin, bind, read_arch.
  destruct (name_differs (arch_name bv) (arch w)) eqn:D; [|discriminate].
  destruct (select_module (arch_name bv)) as [m|]; [discriminate|].
  cbn. intros [= <- <-]. repeat split; auto.
  intros E. apply name_differs_false in E. congruence.
Qed.

Lemma init_plugin_succeeds_iff (bv : BinaryView) (w : World) :
  succeeded (init_plugin bv w) = true <->
  arch w = Some (arch_name bv) \/ select_module (arch_name bv) <> None.
Proof.
  split.
  - intros S. destruct (init_plugin bv w) as [[] w1|e w1] eqn:I; [|discriminate].
    destruct (select_module (arch_name bv)) eqn:M; [right; discriminate|].
    left. destruct (name_differs (arch_name bv) (arch w)) eqn:D.
    + unfold init_plugin, bind, read_arch in I. rewrite D, M in I. discriminate.
    + now apply name_differs_false.
  - intros [E | N].
    + now rewrite (init_plugin_cached bv w E).
    + destruct (init_plugin bv w) as [[] w1|e w1] eqn:I; [reflexivity|].
      apply init_plugin_raise_inv in I. now destruct I as (_ & _ & _ & M).
Qed.

(** After the selection the only step that can still raise is the state
    step, and only with something other than [AttributeError]. *)
Lemma explain_instruction_outcome (bv : BinaryView) (addr : Z) (w w1 : World) :
  init_plugin bv w = Ok tt w1 ->
  explain_instruction bv addr w =
    match get_state bv addr with
    | inl AttributeError => Ok tt (final_world (explain_instruction bv addr w))
    | inl e => Raise e (final_world (explain_instruction bv addr w))
    | inr _ => Ok tt (final_world (explain_instruction bv addr w))
    end.
Proof.
  intros I.
  remember (explain_instruction bv addr w) as r eqn:R.
  unfold explain_instruction, bind at 1 in R. rewrite I in R.
  unfold bind, read_override in R. cbn beta iota in R.
  destruct (call_override _ _ _ _) as [sup L].
  unfold try_except, set_instruction, set_state, print_exc, log_error,
    bind, emit, raise, ret in R.
  cbn beta iota in R.
  destruct (instruction_setter _) as [e1|];
    destruct (get_state bv addr) as [[msg| |]|st];
    cbn in R; subst r; reflexivity.
Qed.

(** X5. Any other exception of the state collaborator is not handled: the
    invocation ends with that very exception, after the instruction, the
    description, both IL texts and the flags have been written, and with
    nothing logged, no state written and the window not shown. *)
Theorem explain_instruction_state_error_propagates (bv : BinaryView) (addr : Z)
    (w : World) (e : Exn) :
  succeeded (init_plugin bv w) = true ->
  get_state bv addr = inl e ->
  e <> AttributeError ->
  let evs := written bv addr w in
  explain_instruction bv addr w =
    Raise e (final_world (explain_instruction bv addr w)) /\
  instructions evs = [instruction_text addr (instruction_at bv addr)] /\
  List.length (descriptions evs) = 1%nat /\
  llils evs = [map (dereference_symbols bv) (llil_at bv addr)] /\
  mlils evs = [map (dereference_symbols bv) (mlil_at bv addr)] /\
  List.length (flag_triples evs) = 1%nat /\
  states evs = [] /\
  logged_errors evs = [] /\
  shows evs = 0%nat.
Proof.
  intros S G N evs. split.
  - apply init_plugin_unit in S.
    rewrite (explain_instruction_outcome bv addr w _ S) at 1. rewrite G.
    destruct e; [reflexivity | contradiction | reflexivity].
  - subst evs.
    destruct (override_result bv addr w) as [supersede L] eqn:O.
    pose proof (written_shape bv addr w supersede L S O) as Sh.
    destruct Sh as (pre & [-> | [m ->]] & ->);
      unfold instruction_events, state_events; rewrite G;
      destruct (instruction_setter _); destruct e; try contradiction;
      cbn; repeat split; reflexivity.
Qed.

(** X6. The window is shown exactly once by an invocation that ends
    normally, as the last thing it does, and not at all by one that
    raises. *)
Theorem explain_instruction_shows_iff_succeeds (bv : BinaryView) (addr : Z)
    (w : World) :
  shows (written bv addr w) =
    (if succeeded (explain_instruction bv addr w) then 1%nat else 0%nat) /\
  (succeeded (explain_instruction bv addr w) = true ->
   last (written bv addr w) PrintExc = Show).
Proof.
  destruct (init_plugin bv w) as [[] w1|e1 w1] eqn:I.
  - assert (S : succeeded (init_plugin bv w) = true) by now rewrite I.
    destruct (override_result bv addr w) as [supersede L] eqn:O.
    pose proof (written_shape bv addr w supersede L S O) as Sh.
    rewrite (explain_instruction_outcome bv addr w w1 I).
    destruct Sh as (pre & [-> | [m ->]] & ->);
      unfold instruction_events, state_events;
      destruct (instruction_setter _);
      destruct (get_state bv addr) as [[msg| |]|st];
      cbn; split; try reflexivity; discriminate.
  - pose proof (explain_instruction_aborts bv addr w _ _ I) as E.
    apply init_plugin_raise_inv in I. destruct I as (-> & _).
    unfold written. rewrite E. cbn.
    rewrite (emitted_app w w []) by now rewrite app_nil_r.
    split; [reflexivity | discriminate].
Qed.

(** X11. The description shown is blank exactly when the override has no
    lines and the folder returns no unit to explain. *)
Theorem explain_instruction_blank_description (bv : BinaryView) (addr : Z)
    (w : World) (supersede : bool) (L : list string) :
  succeeded (init_plugin bv w) = true ->
  override_result bv addr w = (supersede, L) ->
  (descriptions (written bv addr w) = [[]] <->
   L = [] /\
   fold_multi_il bv (parse_source (llil_at bv addr) (lifted_at bv addr)) = []).
Proof.
  intros S O.
  assert (F : descriptions (written bv addr w) =
              [description_lines bv supersede L
                 (fold_multi_il bv (parse_source (llil_at bv addr) (lifted_at bv addr)))]).
  { pose proof (written_shape bv addr w supersede L S O) as Sh.
    shape_cases Sh; reflexivity. }
  rewrite F. unfold description_lines. rewrite map_id.
  destruct L as [|l L]; cbn.
  - split.
    + intros [= E]. split; [reflexivity|]. now apply map_eq_nil in E.
    + intros [_ ->]. reflexivity.
  - destruct supersede; split; try discriminate; intros [A _]; discriminate.
Qed.

End EntryPointProperties.

(** ** The cached selection across invocations *)

Section SelectionProperties.

Context `{H : Host}.

Lemma last_doc_url_snoc (evs : list Event) (e : Event) :
  last_doc_url (evs ++ [e]) =
    match e with SetGetDocUrl m => Some m | _ => last_doc_url evs end.
Proof.
  unfold last_doc_url. rewrite fold_left_app. reflexivity.
Qed.

(** Events of a bundle leave the documentation hook alone. *)
Lemma last_doc_url_bundle (evs more : list Event) :
  bundle more = more -> last_doc_url (evs ++ more) = last_doc_url evs.
Proof.
  revert evs. induction more as [|e more IH]; intros evs B.
  - now rewrite app_nil_r.
  - assert (E : (evs ++ e :: more = (evs ++ [e]) ++ more)%list)
      by now rewrite <- app_assoc.
    rewrite E. cbn in B.
    destruct e; try discriminate B;
      try (injection B as B; rewrite (IH _ B), last_doc_url_snoc; reflexivity).
    exfalso.
    assert (Len : (List.length (bundle more) <= List.length more)%nat)
      by apply filter_length_le.
    unfold bundle in Len. rewrite B in Len. cbn in Len. lia.
Qed.

(** What a successful [init_plugin] establishes, whatever it started from
    as long as that was coherent. *)
Lemma init_plugin_coherent (bv : BinaryView) (w w1 : World) :
  selection_coherent w ->
  init_plugin bv w = Ok tt w1 ->
  arch w1 = Some (arch_name bv) /\
  exists m, select_module (arch_name bv) = Some m /\
            architecture_specific_explanation_function w1 = arch_explain_of m /\
            last_doc_url (trace w1) = Some m.
Proof.
  intros C I. unfold init_plugin, bind, read_arch in I.
  destruct (name_differs (arch_name bv) (arch w)) eqn:D.
  - destruct (select_module (arch_name bv)) as [m|] eqn:M; [|discriminate].
    injection I as <-. cbn. split; [reflexivity|].
    exists m. repeat split. apply last_doc_url_snoc.
  - injection I as <-. apply name_differs_false in D.
    unfold selection_coherent in C. rewrite D in C. auto.
Qed.

Lemma coherent_cache_ok (w : World) : selection_coherent w -> cache_ok w = true.
Proof.
  unfold selection_coherent, cache_ok.
  destruct (arch w) as [a|]; [|reflexivity].
  intros (m & -> & _). reflexivity.
Qed.

(** X1. The cached name, the selected override function and the
    documentation hook held by the window always come from one package,
    the one the chain picks for the cached name: this holds right after
    import and every invocation, failed or not, keeps it. *)
Theorem selection_coherent_invariant (bv : BinaryView) (addr : Z) (w : World) :
  selection_coherent initial_world /\
  (selection_coherent w ->
   selection_coherent (final_world (explain_instruction bv addr w))).
Proof.
  split; [split; reflexivity|].
  intros C. destruct (init_plugin bv w) as [[] w1|e w1] eqn:I.
  - destruct (init_plugin_coherent bv w w1 C I) as (A & m & M & F & D).
    destruct (call_override (architecture_specific_explanation_function w1) bv
                (instruction_at bv addr) (lifted_at bv addr)) as [sup L] eqn:O.
    destruct (explain_instruction_trace bv addr w w1 sup L I O) as (A' & F' & T').
    unfold selection_coherent. rewrite A', A. exists m.
    split; [exact M | split; [now rewrite F'|]].
    rewrite T', last_doc_url_bundle; [exact D|].
    unfold instruction_events, state_events.
    destruct (instruction_setter _);
      destruct (get_state bv addr) as [[msg| |]|st]; reflexivity.
  - rewrite (explain_instruction_aborts bv addr w _ _ I).
    apply init_plugin_raise_inv in I. destruct I as (-> & _). exact C.
Qed.

(** The selection a coherent state yields for a supported name. *)
Lemma coherent_selection_used (bv : BinaryView) (addr : Z)
    (w : World) (m : ArchModule) :
  selection_coherent w ->
  select_module (arch_name bv) = Some m ->
  succeeded (init_plugin bv w) = true /\
  override_result bv addr w =
    arch_explain_instruction m bv (instruction_at bv addr) (lifted_at bv addr).
Proof.
  intros C M.
  assert (S : succeeded (init_plugin bv w) = true).
  { apply init_plugin_succeeds_iff. right. congruence. }
  pose proof (init_plugin_unit bv w S) as I.
  destruct (init_plugin_coherent bv w _ C I) as (_ & m' & M' & F & _).
  assert (m' = m) by congruence. subst m'.
  split; [exact S|]. unfold override_result. rewrite F. reflexivity.
Qed.

(** X2. In a coherent state the override consulted is the one of the
    package chosen for the architecture of the binary at hand, whether the
    selection was cached or had to be re-derived: never the one of a
    binary seen earlier, never the placeholder the module starts with. *)
Theorem explain_instruction_uses_current_package (bv : BinaryView) (addr : Z)
    (w : World) (m : ArchModule) :
  selection_coherent w ->
  select_module (arch_name bv) = Some m ->
  succeeded (init_plugin bv w) = true /\
  override_result bv addr w =
    arch_explain_instruction m bv (instruction_at bv addr) (lifted_at bv addr) /\
  descriptions (written bv addr w) =
    [description_lines bv
       (fst (arch_explain_instruction m bv (instruction_at bv addr) (lifted_at bv addr)))
       (snd (arch_explain_instruction m bv (instruction_at bv addr) (lifted_at bv addr)))
       (fold_multi_il bv (parse_source (llil_at bv addr) (lifted_at bv addr)))].
Proof.
  intros C M.
  destruct (coherent_selection_used bv addr w m C M) as (S & O).
  split; [exact S | split; [exact O|]].
  destruct (arch_explain_instruction m bv (instruction_at bv addr) (lifted_at bv addr))
    as [sup L] eqn:R.
  pose proof (written_shape bv addr w sup L S O) as Sh.
  destruct Sh as (pre & [-> | [m0 ->]] & ->);
    unfold instruction_events, state_events;
    destruct (instruction_setter _);
    destruct (get_state bv addr) as [[msg| |]|st]; reflexivity.
Qed.

(** X3. What is written for an instruction does not depend on what was
    explained before: from any two coherent states the invocation writes
    the same bundle (all events but a possible documentation hook) and
    ends the same way. *)
Theorem explain_instruction_history_independent (bv : BinaryView) (addr : Z)
    (w1 w2 : World) :
  selection_coherent w1 ->
  selection_coherent w2 ->
  bundle (written bv addr w1) = bundle (written bv addr w2) /\
  succeeded (explain_instruction bv addr w1) =
    succeeded (explain_instruction bv addr w2).
Proof.
  intros C1 C2.
  destruct (select_module (arch_name bv)) as [m|] eqn:M.
  - destruct (coherent_selection_used bv addr w1 m C1 M)
      as (S1 & O1).
    destruct (coherent_selection_used bv addr w2 m C2 M)
      as (S2 & O2).
    destruct (arch_explain_instruction m bv (instruction_at bv addr) (lifted_at bv addr))
      as [sup L] eqn:R.
    pose proof (written_shape bv addr w1 sup L S1 O1) as Sh1.
    pose proof (written_shape bv addr w2 sup L S2 O2) as Sh2.
    split.
    + destruct Sh1 as (pre1 & [-> | [m1 ->]] & ->);
        destruct Sh2 as (pre2 & [-> | [m2 ->]] & ->);
        unfold instruction_events, state_events;
        destruct (instruction_setter _);
        destruct (get_state bv addr) as [[msg| |]|st]; reflexivity.
    + rewrite (explain_instruction_outcome bv addr w1 _ (init_plugin_unit bv w1 S1)).
      rewrite (explain_instruction_outcome bv addr w2 _ (init_plugin_unit bv w2 S2)).
      destruct (get_state bv addr) as [[msg| |]|st]; reflexivity.
  - pose proof (init_plugin_rejects bv w1
                  (cache_ok_differs bv w1 (coherent_cache_ok w1 C1) M) M) as I1.
    pose proof (init_plugin_rejects bv w2
                  (cache_ok_differs bv w2 (coherent_cache_ok w2 C2) M) M) as I2.
    unfold written.
    rewrite (explain_instruction_aborts bv addr w1 _ _ I1).
    rewrite (explain_instruction_aborts bv addr w2 _ _ I2). cbn.
    rewrite (emitted_app w1 w1 []) by now rewrite app_nil_r.
    rewrite (emitted_app w2 w2 []) by now rewrite app_nil_r.
    split; reflexivity.
Qed.

(** X9. [init_plugin] raises exactly when the architecture name is not
    the cached one and none of [x86], [mips], [aarch64], [arm], [thumb],
    [6502], [msp430], [powerpc] occurs in it; it then raises the
    [TypeError] and leaves the module state and the window as they were. *)
Theorem init_plugin_raises_iff (bv : BinaryView) (w : World) :
  (succeeded (init_plugin bv w) = false <->
   arch w <> Some (arch_name bv) /\
   forall s, In s arch_substrings -> ~ occurs s (arch_name bv)) /\
  (succeeded (init_plugin bv w) = false ->
   init_plugin bv w = Raise (TypeError "Could not identify architecture type!") w).
Proof.
  split; [split|].
  - intros S. destruct (init_plugin bv w) as [[] w1|e w1] eqn:I; [discriminate|].
    apply init_plugin_raise_inv in I. destruct I as (_ & _ & D & M).
    split; [exact D | now apply select_module_none_occurs].
  - intros [D N]. apply select_module_none_occurs in N.
    now rewrite (init_plugin_rejects bv w D N).
  - intros S. destruct (init_plugin bv w) as [[] w1|e w1] eqn:I; [discriminate|].
    apply init_plugin_raise_inv in I. destruct I as (-> & -> & _). reflexivity.
Qed.

(** X10. Once an invocation has selected the architecture of a binary,
    further invocations on that binary find the selection cached:
    [init_plugin] does nothing, the documentation hook is not written
    again, and the cached name and function stay. *)
Theorem explain_instruction_reuses_selection (bv : BinaryView) (addr addr' : Z)
    (w : World) :
  succeeded (init_plugin bv w) = true ->
  let w' := final_world (explain_instruction bv addr w) in
  let w'' := final_world (explain_instruction bv addr' w') in
  init_plugin bv w' = Ok tt w' /\
  doc_urls (written bv addr' w') = [] /\
  arch w'' = arch w' /\
  architecture_specific_explanation_function w'' =
    architecture_specific_explanation_function w'.
Proof.
  intros S w' w''.
  pose proof (init_plugin_unit bv w S) as I.
  assert (A1 : arch (final_world (init_plugin bv w)) = Some (arch_name bv)).
  { clear I. unfold init_plugin, bind, read_arch in *.
    destruct (name_differs (arch_name bv) (arch w)) eqn:D.
    - destruct (select_module (arch_name bv)); [reflexivity | discriminate].
    - now apply name_differs_false in D. }
  destruct (call_override
              (architecture_specific_explanation_function
                 (final_world (init_plugin bv w))) bv
              (instruction_at bv addr) (lifted_at bv addr)) as [sup L] eqn:O.
  destruct (explain_instruction_trace bv addr w _ sup L I O) as (A & _ & _).
  assert (A' : arch w' = Some (arch_name bv)) by (subst w'; congruence).
  pose proof (init_plugin_cached bv w' A') as I'.
  destruct (call_override (architecture_specific_explanation_function w') bv
              (instruction_at bv addr') (lifted_at bv addr')) as [sup' L'] eqn:O'.
  destruct (explain_instruction_trace bv addr' w' w' sup' L' I' O') as (B & F & T).
  repeat split; auto.
  unfold written. fold w''. rewrite (emitted_app w' w'' _ T).
  unfold instruction_events, state_events.
  destruct (instruction_setter _);
    destruct (get_state bv addr') as [[msg| |]|st]; reflexivity.
Qed.

End SelectionProperties.

(** ** The further properties on the concrete hosts *)

(** Coherence survives an x86 session. *)
Lemma selection_coherent_invariant_witness :
  selection_coherent fresh /\ selection_coherent after_x86.
Proof.
  assert (C : selection_coherent fresh) by (split; reflexivity).
  split; [exact C|].
  exact (proj2 (selection_coherent_invariant (H := demo_host) "x86_64" 8 fresh) C).
Defined.

(** A MIPS binary opened after an x86 one is explained by the MIPS
    package, which has nothing to say about the instruction. *)
Lemma explain_instruction_uses_current_package_witness :
  select_module "mips32" = Some mips /\
  override_result (H := demo_host) "mips32" 8 after_x86 = (false, []).
Proof.
  split; [reflexivity|].
  assert (C : selection_coherent after_x86)
    by (exists x86; repeat split; reflexivity).
  destruct (explain_instruction_uses_current_package (H := demo_host)
              "mips32" 8 after_x86 mips C eq_refl)
    as (_ & O & _).
  exact O.
Defined.

(** The same instruction explained first thing and after another one. *)
Lemma explain_instruction_history_independent_witness :
  bundle (written (H := demo_host) "x86_64" 16 fresh) =
  bundle (written (H := demo_host) "x86_64" 16 after_x86).
Proof.
  assert (C1 : selection_coherent fresh) by (split; reflexivity).
  assert (C2 : selection_coherent after_x86)
    by (exists x86; repeat split; reflexivity).
  exact (proj1 (explain_instruction_history_independent (H := demo_host)
                  "x86_64" 16 fresh after_x86 C1 C2)).
Defined.

(** The state collaborator fails with something else. *)
Lemma explain_instruction_state_error_propagates_witness :
  get_state (Host := FailingState.failing_host) "x86_64" 12 = inl OtherException /\
  succeeded (explain_instruction (H := FailingState.failing_host) "x86_64" 12
               initial_world) = false /\
  shows (written (H := FailingState.failing_host) "x86_64" 12 initial_world) = 0%nat.
Proof.
  split; [reflexivity|].
  assert (N : OtherException <> AttributeError) by discriminate.
  destruct (explain_instruction_state_error_propagates
              (H := FailingState.failing_host) "x86_64" 12 initial_world
              OtherException eq_refl eq_refl N)
    as (R & _ & _ & _ & _ & _ & _ & _ & Sh).
  split; [rewrite R; reflexivity | exact Sh].
Defined.

(** A normal end: the window is shown last. *)
Lemma explain_instruction_shows_iff_succeeds_witness :
  succeeded (explain_instruction (H := demo_host) "x86_64" 8 fresh) = true /\
  last (written (H := demo_host) "x86_64" 8 fresh) PrintExc = Show.
Proof.
  split; [reflexivity|].
  exact (proj2 (explain_instruction_shows_iff_succeeds (H := demo_host)
                  "x86_64" 8 fresh) eq_refl).
Defined.

(** An architecture the chain does not know. *)
Lemma init_plugin_raises_iff_witness :
  succeeded (init_plugin (H := demo_host) "riscv" fresh) = false /\
  init_plugin (H := demo_host) "riscv" fresh =
    Raise (TypeError "Could not identify architecture type!") fresh.
Proof.
  split; [reflexivity|].
  exact (proj2 (init_plugin_raises_iff (H := demo_host) "riscv" fresh) eq_refl).
Defined.

(** Two instructions of one binary. *)
Lemma explain_instruction_reuses_selection_witness :
  init_plugin (H := demo_host) "x86_64" after_x86 = Ok tt after_x86 /\
  doc_urls (written (H := demo_host) "x86_64" 16 after_x86) = [].
Proof.
  destruct (explain_instruction_reuses_selection (H := demo_host)
              "x86_64" 8 16 fresh eq_refl)
    as (I & D & _).
  split; [exact I | exact D].
Defined.

(** An instruction with no IL and no override line. *)
Lemma explain_instruction_blank_description_witness :
  override_result (H := demo_host) "x86_64" 0 fresh = (false, []) /\
  descriptions (written (H := demo_host) "x86_64" 0 fresh) = [[]].
Proof.
  split; [reflexivity|].
  apply (proj2 (explain_instruction_blank_description (H := demo_host)
                  "x86_64" 0 fresh false [] eq_refl eq_refl)).
  split; reflexivity.
Defined.
